(** * Classification and inference engine of the Todoist runner

    A shallow embedding of the pure core of the service
    (src/core/processing.py, src/utils/validators.py,
    src/utils/frequency_labels.py and the batch helpers of src/main.py),
    followed by the properties proved about it.

    Python strings are sequences of Unicode code points, so they are
    modelled as lists of code points ([N]); the few dictionaries the code
    passes around are finite maps keyed by their (ASCII) key names. *)

From Stdlib Require Import ZArith NArith Lia.
From stdpp Require Import gmap list strings.

#[local] Open Scope Z_scope.

(** ** Python strings *)

Module PyStr.

(** A code point, and a Python [str]. *)
Definition cp := N.
Bind Scope N_scope with cp.
Definition str := list cp.

(** Literals are written as UTF-8 text and decoded to code points. *)
Fixpoint utf8_decode (bs : list N) : str :=
  match bs with
  | [] => []
  | b :: r =>
    if (b <? 128)%N then b :: utf8_decode r
    else if (b <? 224)%N then
      match r with
      | b1 :: r1 => ((b - 192) * 64 + (b1 - 128))%N :: utf8_decode r1
      | _ => []
      end
    else if (b <? 240)%N then
      match r with
      | b1 :: b2 :: r2 =>
        ((b - 224) * 4096 + (b1 - 128) * 64 + (b2 - 128))%N :: utf8_decode r2
      | _ => []
      end
    else
      match r with
      | b1 :: b2 :: b3 :: r3 =>
        ((b - 240) * 262144 + (b1 - 128) * 4096 + (b2 - 128) * 64
         + (b3 - 128))%N :: utf8_decode r3
      | _ => []
      end
  end.

Fixpoint bytes_of_string (s : string) : list N :=
  match s with
  | EmptyString => []
  | String a r => Ascii.N_of_ascii a :: bytes_of_string r
  end.

Definition py (s : string) : str := utf8_decode (bytes_of_string s).

(** [str.isspace] for one character; the regular-expression class [\s]
    of a [str] pattern is the same set. *)
Definition isspace (c : cp) : bool :=
  ((9 <=? c) && (c <=? 13) || (28 <=? c) && (c <=? 32)
   || (c =? 133) || (c =? 160) || (c =? 5760)
   || (8192 <=? c) && (c <=? 8202)
   || (c =? 8232) || (c =? 8233) || (c =? 8239) || (c =? 8287)
   || (c =? 12288))%N.

(** [s.strip()]: drop leading and trailing whitespace. *)
Fixpoint lstrip_by (p : cp -> bool) (s : str) : str :=
  match s with
  | c :: r => if p c then lstrip_by p r else s
  | [] => []
  end.

Definition rstrip_by (p : cp -> bool) (s : str) : str :=
  rev (lstrip_by p (rev s)).

Definition strip_by (p : cp -> bool) (s : str) : str :=
  rstrip_by p (lstrip_by p s).

Definition strip (s : str) : str := strip_by isspace s.

(** [s.strip(chars)]. *)
Definition mem_cp (chars : str) (c : cp) : bool :=
  existsb (N.eqb c) chars.

Definition strip_chars (chars s : str) : str := strip_by (mem_cp chars) s.

(** [s.startswith(p)]. *)
Fixpoint startswith (s p : str) : bool :=
  match p, s with
  | [], _ => true
  | a :: p', b :: s' => (a =? b)%N && startswith s' p'
  | _ :: _, [] => false
  end.

(** [p in s] for strings. *)
Fixpoint contains (s p : str) : bool :=
  startswith s p ||
  match s with
  | [] => false
  | _ :: r => contains r p
  end.

(** [s.replace(c, "")] for a one-character [c]. *)
Definition remove_char (c : cp) (s : str) : str :=
  filter (fun x => x ≠ c) s.

(** [s.split()]: the maximal runs of non-whitespace characters. *)
Fixpoint split_aux (cur : str) (s : str) : list str :=
  match s with
  | [] => match cur with [] => [] | _ => [rev cur] end
  | c :: r =>
    if isspace c then
      match cur with
      | [] => split_aux [] r
      | _ => rev cur :: split_aux [] r
      end
    else split_aux (c :: cur) r
  end.

Definition split (s : str) : list str := split_aux [] s.

(** Decimal rendering of a non-negative number, most significant digit
    first, and the format specification [{n:02d}]. *)
Fixpoint digits_fuel (fuel : nat) (n : N) (acc : str) : str :=
  match fuel with
  | O => acc
  | S f =>
    let acc' := (48 + n mod 10)%N :: acc in
    if (n <? 10)%N then acc' else digits_fuel f (n / 10)%N acc'
  end.

Definition digits (n : N) : str := digits_fuel (S (N.to_nat (N.log2 n))) n [].

Definition zfill (w : nat) (s : str) : str :=
  replicate (w - length s) 48%N ++ s.

Definition format_d (w : nat) (z : Z) : str :=
  if z <? 0 then 45%N :: zfill (w - 1) (digits (Z.to_N (- z)))
  else zfill w (digits (Z.to_N z)).

Definition format_02d : Z -> str := format_d 2.

End PyStr.

Export PyStr.

(** ** Python values, exceptions and the error monad *)

(** The exceptions the modelled code can raise. *)
Inductive exn :=
| AttributeError | TypeError | ValueError | KeyError | OverflowError.

(** The outcome of a call: a value, or a raised exception. *)
Inductive result (A : Type) :=
| Ok (a : A)
| Raise (e : exn).
Arguments Ok {A} a.
Arguments Raise {A} e.

(** Sequencing stops at the first exception. *)
Definition bind {A B} (r : result A) (f : A -> result B) : result B :=
  match r with
  | Ok a => f a
  | Raise e => Raise e
  end.

Notation "'let*' x ':=' r 'in' k" := (bind r (fun x => k))
  (at level 10, x name, r at level 100, k at level 200).

(** The scalar values found in a due dictionary. *)
Inductive value :=
| VNone
| VBool (b : bool)
| VInt (z : Z)
| VStr (s : str).

#[export] Instance value_eq_dec : EqDecision value.
Proof. solve_decision. Defined.

(** Python truthiness. *)
Definition truthy (v : value) : bool :=
  match v with
  | VNone => false
  | VBool b => b
  | VInt z => negb (z =? 0)
  | VStr s => match s with [] => false | _ => true end
  end.

(** A dictionary with string keys, and [d.get(k)] / [d.get(k, dflt)]. *)
Abbreviation dict := (gmap string value).

Definition dict_get (d : dict) (k : string) : value :=
  default VNone (d !! k).

Definition dict_get_default (d : dict) (k : string) (dflt : value) : value :=
  default dflt (d !! k).

(** ** The proleptic Gregorian calendar of [datetime] *)

Module Calendar.

Definition MINYEAR : Z := 1.
Definition MAXYEAR : Z := 9999.
(** [date.max.toordinal()] *)
Definition MAXORDINAL : Z := 3652059.

Definition is_leap (y : Z) : bool :=
  (y mod 4 =? 0) && (negb (y mod 100 =? 0) || (y mod 400 =? 0)).

Definition days_in_month (y m : Z) : Z :=
  if m =? 2 then (if is_leap y then 29 else 28)
  else if (m =? 4) || (m =? 6) || (m =? 9) || (m =? 11) then 30
  else 31.

Definition days_before_year (y : Z) : Z :=
  let p := y - 1 in p * 365 + p / 4 - p / 100 + p / 400.

(** Days of the year that precede the first day of month [m], for a
    common year. *)
Definition DAYS_BEFORE_MONTH (m : Z) : Z :=
  match m with
  | 1 => 0 | 2 => 31 | 3 => 59 | 4 => 90 | 5 => 120 | 6 => 151
  | 7 => 181 | 8 => 212 | 9 => 243 | 10 => 273 | 11 => 304 | _ => 334
  end.

Definition days_before_month (y m : Z) : Z :=
  DAYS_BEFORE_MONTH m + (if (2 <? m) && is_leap y then 1 else 0).

(** [date(y, m, d).toordinal()]: 1 is 0001-01-01. *)
Definition ymd2ord (y m d : Z) : Z :=
  days_before_year y + days_before_month y m + d.

(** The inverse, as [date.fromordinal] computes it. *)
Definition ord2ymd (ord : Z) : Z * Z * Z :=
  let n := ord - 1 in
  let n400 := n / 146097 in
  let n := n mod 146097 in
  let year := n400 * 400 + 1 in
  let n100 := n / 36524 in
  let n := n mod 36524 in
  let n4 := n / 1461 in
  let n := n mod 1461 in
  let n1 := n / 365 in
  let n := n mod 365 in
  let year := year + n100 * 100 + n4 * 4 + n1 in
  if (n1 =? 4) || (n100 =? 4) then (year - 1, 12, 31)
  else
    let leapyear := (n1 =? 3) && (negb (n4 =? 24) || (n100 =? 3)) in
    let month := Z.shiftr (n + 50) 5 in
    let preceding :=
      DAYS_BEFORE_MONTH month + (if (2 <? month) && leapyear then 1 else 0) in
    if n <? preceding then
      let month := month - 1 in
      let dim :=
        (if month =? 2 then 28
         else if (month =? 4) || (month =? 6) || (month =? 9) || (month =? 11)
              then 30 else 31)
        + (if (month =? 2) && leapyear then 1 else 0) in
      let preceding := preceding - dim in
      (year, month, n - preceding + 1)
    else (year, month, n - preceding + 1).

(** A [date] is kept as its ordinal, [1 <= ord <= MAXORDINAL]. *)
Definition date := Z.

Definition valid_date (d : date) : Prop := 1 <= d <= MAXORDINAL.

(** [d.weekday()]: Monday is 0. *)
Definition weekday (d : date) : Z := (d + 6) mod 7.

(** [d.isoformat()]: YYYY-MM-DD. *)
Definition isoformat (d : date) : str :=
  let '(y, m, dd) := ord2ymd d in
  format_d 4 y ++ [45%N] ++ format_d 2 m ++ [45%N] ++ format_d 2 dd.

(** A time zone, as the fixed offset from UTC it applies, in
    microseconds. *)
Definition tzinfo := Z.

(** A [datetime]: the date, the microseconds since midnight and the
    attached zone ([None] for a naive value). *)
Record datetime := mkdt {
  dt_date : date;
  dt_time : Z;
  dt_tzinfo : option tzinfo
}.

(** [dt.replace(tzinfo=tz)]: the fields are kept, only the zone changes. *)
Definition replace_tzinfo (dt : datetime) (tz : tzinfo) : datetime :=
  mkdt (dt_date dt) (dt_time dt) (Some tz).

Definition usec_per_day : Z := 86400000000.

(** Microseconds since the epoch of the calendar, in UTC, of an aware
    value; the wall clock of a naive one. *)
Definition instant (dt : datetime) : Z :=
  dt_date dt * usec_per_day + dt_time dt - default 0 (dt_tzinfo dt).

(** [a < b] on datetimes: comparing a naive with an aware value raises. *)
Definition dt_lt (a b : datetime) : result bool :=
  match dt_tzinfo a, dt_tzinfo b with
  | None, None | Some _, Some _ => Ok (instant a <? instant b)
  | _, _ => Raise TypeError
  end.

(** [dt.astimezone(tz)] of an aware value. *)
Definition astimezone (dt : datetime) (tz : tzinfo) : datetime :=
  let local := instant dt + tz in
  mkdt (local / usec_per_day) (local mod usec_per_day) (Some tz).

(** [dt + timedelta(days=k)]. *)
Definition add_days (dt : datetime) (k : Z) : result datetime :=
  let o := dt_date dt + k in
  if (0 <? o) && (o <=? MAXORDINAL)
  then Ok (mkdt o (dt_time dt) (dt_tzinfo dt))
  else Raise OverflowError.

(** [dateutil.relativedelta(months=.., days=..)], with [weeks] folded into
    days as its constructor does. *)
Record relativedelta := mkrd { rd_months : Z; rd_days : Z }.

Definition rd_of_months (n : Z) := mkrd n 0.
Definition rd_of_days (n : Z) := mkrd 0 n.
Definition rd_of_weeks (n : Z) := mkrd 0 (7 * n).

(** [dt + rd]: the month is shifted first, the day clipped to the length
    of the new month; [replace] rejects a year past [MAXYEAR]; the days
    are added last. *)
Definition add_relativedelta (dt : datetime) (rd : relativedelta)
  : result datetime :=
  let '(y, m, d) := ord2ymd (dt_date dt) in
  let m1 := m + rd_months rd in
  let '(y2, m2) :=
    if rd_months rd =? 0 then (y, m)
    else if 12 <? m1 then (y + 1, m1 - 12)
    else if m1 <? 1 then (y - 1, m1 + 12)
    else (y, m1) in
  let d2 := Z.min (days_in_month y2 m2) d in
  if (MINYEAR <=? y2) && (y2 <=? MAXYEAR) then
    add_days (mkdt (ymd2ord y2 m2 d2) (dt_time dt) (dt_tzinfo dt)) (rd_days rd)
  else Raise ValueError.

End Calendar.

Export Calendar.

(** ** Character classes of the [re] module *)

Module CharClass.

Section Unicode.

(** [str.isalnum] and membership in the decimal-digit category for the
    code points above ASCII come from the Unicode database, which is kept
    as a parameter; the ASCII range is written out. *)
Variable uni_alnum : cp -> bool.
Variable uni_decimal : cp -> bool.

Definition is_ascii_digit (c : cp) : bool := ((48 <=? c) && (c <=? 57))%N.
Definition is_ascii_upper (c : cp) : bool := ((65 <=? c) && (c <=? 90))%N.
Definition is_ascii_lower (c : cp) : bool := ((97 <=? c) && (c <=? 122))%N.

(** [\d] *)
Definition is_digit (c : cp) : bool :=
  if (c <? 128)%N then is_ascii_digit c else uni_decimal c.

(** [\w]: alphanumeric or the underscore. *)
Definition is_word (c : cp) : bool :=
  if (c <? 128)%N
  then is_ascii_digit c || is_ascii_upper c || is_ascii_lower c || (c =? 95)%N
  else uni_alnum c.

(** [\W] *)
Definition is_nonword (c : cp) : bool := negb (is_word c).

End Unicode.

(** [\S] *)
Definition is_nonspace (c : cp) : bool := negb (isspace c).

(** [.] without DOTALL: anything but a newline. *)
Definition is_dot (c : cp) : bool := negb (c =? 10)%N.

(** The class [[_EMOJI_RANGES]]. *)
Definition is_emoji (c : cp) : bool :=
  ((0x1f300 <=? c) && (c <=? 0x1f5ff)
   || (0x1f600 <=? c) && (c <=? 0x1f64f)
   || (0x1f680 <=? c) && (c <=? 0x1f6ff)
   || (0x2600 <=? c) && (c <=? 0x26ff)
   || (0x2700 <=? c) && (c <=? 0x27bf)
   || (0x1f900 <=? c) && (c <=? 0x1f9ff)
   || (0x1fa70 <=? c) && (c <=? 0x1faff))%N.

(** The class of [_INVISIBLE_EDGE_CHARS_RE]. *)
Definition is_invisible (c : cp) : bool :=
  ((c =? 0xFE0E) || (c =? 0xFE0F) || (c =? 0x200D) || (c =? 0x200B)
   || (c =? 0xFEFF))%N.

End CharClass.

Export CharClass.

(** ** A backtracking matcher

    The patterns of the validator are written with matcher combinators in
    continuation-passing style.  A matcher receives the continuation [k]
    for the rest of the pattern and the remaining input; the continuation
    receives the text the matcher consumed and the input left.  The first
    success in the order in which [re] explores the alternatives is the
    result, so greedy and lazy quantifiers differ as they do in Python. *)

Module Regex.

Section Matchers.

Context {A : Type}.

Definition cont := str -> str -> option A.

(** One character of class [p]. *)
Definition one (p : cp -> bool) (k : cont) (s : str) : option A :=
  match s with
  | c :: r => if p c then k [c] r else None
  | [] => None
  end.

(** A fixed sequence of one-character classes. *)
Fixpoint classes (ps : list (cp -> bool)) (acc : str) (k : cont) (s : str)
  : option A :=
  match ps with
  | [] => k acc s
  | p :: ps' =>
    match s with
    | c :: r => if p c then classes ps' (acc ++ [c]) k r else None
    | [] => None
    end
  end.

(** Greedy [p*]: the longest run first, then shorter ones. *)
Fixpoint star (p : cp -> bool) (acc : str) (k : cont) (s : str) : option A :=
  match s with
  | c :: r =>
    if p c then
      match star p (acc ++ [c]) k r with
      | Some x => Some x
      | None => k acc s
      end
    else k acc s
  | [] => k acc []
  end.

(** Greedy [p+]. *)
Definition plus (p : cp -> bool) (k : cont) (s : str) : option A :=
  match s with
  | c :: r => if p c then star p [c] k r else None
  | [] => None
  end.

(** Lazy [p+?]: the shortest run first, then longer ones. *)
Fixpoint lazy_plus (p : cp -> bool) (acc : str) (k : cont) (s : str)
  : option A :=
  match s with
  | c :: r =>
    if p c then
      match k (acc ++ [c]) r with
      | Some x => Some x
      | None => lazy_plus p (acc ++ [c]) k r
      end
    else None
  | [] => None
  end.

(** [$] without MULTILINE: the end of the input, or just before a newline
    that ends it. *)
Definition eos (k : option A) (s : str) : option A :=
  match s with
  | [] => k
  | [10%N] => k
  | _ => None
  end.

End Matchers.

End Regex.

(** ** The ticket-name validator (src/utils/validators.py) *)

Module Validators.

Import Regex.

(** Dictionaries of strings: the groups of a match, and [TitleParts]. *)
Abbreviation sdict := (gmap string str).

Section Unicode.

Variable uni_alnum : cp -> bool.
Variable uni_decimal : cp -> bool.

Let is_digit := is_digit uni_decimal.
Let is_nonword := is_nonword uni_alnum.

(** [\([A-Z]\d{2}-\d{2}-\d{2}\)] *)
Definition id_classes : list (cp -> bool) :=
  [ N.eqb 40; is_ascii_upper; is_digit; is_digit; N.eqb 45;
    is_digit; is_digit; N.eqb 45; is_digit; is_digit; N.eqb 41 ].

(** [_RE.match(s)], with the group dictionary of the match:
<<
    ^\s*(?P<freq>\S+?)\s*(?P<id>\([A-Z]\d{2}-\d{2}-\d{2}\))\s*
    (?P<ticket_emoji>\W)\s*(?P<title>.+\S)\s*$
>> *)
Definition _RE_match (s : str) : option sdict :=
  star isspace [] (fun _ =>
  lazy_plus is_nonspace [] (fun freq =>
  star isspace [] (fun _ =>
  classes id_classes [] (fun id =>
  star isspace [] (fun _ =>
  one is_nonword (fun ticket_emoji =>
  star isspace [] (fun _ =>
  plus is_dot (fun t =>
  one is_nonspace (fun c =>
  star isspace [] (fun _ =>
  eos (Some (<["freq" := freq]> (<["id" := id]>
             (<["ticket_emoji" := ticket_emoji]>
             (<["title" := t ++ c]> ∅)))))))))))))))
  s.

(** [_LEADING_EMOJI_RE.match(title)], with the groups [lead] and [rest]:
    a greedy non-empty run of the emoji class (lead), optional whitespace,
    then a greedy run of any characters (rest) up to the end. *)
Definition _LEADING_EMOJI_RE_match (title : str) : option (str * str) :=
  plus is_emoji (fun lead =>
  star isspace [] (fun _ =>
  star is_dot [] (fun rest =>
  eos (Some (lead, rest)))))
  title.

(** [_INVISIBLE_EDGE_CHARS_RE.sub("", title)]: the pattern
    [^[...]+|[...]+$] matches the leading run of invisible characters and
    the run that ends the string, or that stands before a newline ending
    it. *)
Definition _INVISIBLE_EDGE_CHARS_RE_sub (title : str) : str :=
  let s1 := lstrip_by is_invisible title in
  match rev s1 with
  | 10%N :: c :: r =>
    if is_invisible c then rev (10%N :: lstrip_by is_invisible r) else s1
  | _ => rstrip_by is_invisible s1
  end.

Definition sdict_get (d : sdict) (k : string) : str := default [] (d !! k).

Definition nonempty (s : str) : bool :=
  match s with [] => false | _ => true end.

Definition validate_ticket_name (s : value) (min_title_len : Z)
  : bool * option sdict :=
  match s with
  | VStr s =>
    match _RE_match s with
    | None => (false, None)
    | Some parts =>
      let title := strip (sdict_get parts "title") in
      let '(parts, title) :=
        match _LEADING_EMOJI_RE_match title with
        | Some (lead, rest) =>
          let rest := strip rest in
          (<["ticket_emoji" := sdict_get parts "ticket_emoji" ++ lead]> parts,
           rest)
        | None => (parts, title)
        end in
      let title :=
        if contains title (py "*") then strip (remove_char 42%N title)
        else title in
      let title :=
        if nonempty title then strip (_INVISIBLE_EDGE_CHARS_RE_sub title)
        else title in
      if Z.of_nat (length title) <? min_title_len then (false, None)
      else
        let parts := <["text" := title]> parts in
        let parts := delete "title" parts in
        let parts :=
          match parts !! "id" with
          | Some ((_ :: _) as i) => <["id" := strip_chars (py "()") i]> parts
          | _ => parts
          end in
        (true, Some parts)
    end
  | _ => (false, None)
  end.

End Unicode.

End Validators.

Export Validators.

(** ** Frequency labels (src/utils/frequency_labels.py) *)

Module FrequencyLabels.

Record Frequency := mkFrequency {
  emoji : str;
  name : str;
  number : Z
}.

#[export] Instance Frequency_eq_dec : EqDecision Frequency.
Proof. solve_decision. Defined.

(** The [label] property: emoji, "frequency-", the two-digit number, "-"
    and the name. *)
Definition label (f : Frequency) : str :=
  emoji f ++ py "frequency-" ++ format_02d (number f) ++ py "-" ++ name f.

Definition DAILY := mkFrequency (py "🟢") (py "daily") 1.
Definition MULTIWEEKLY := mkFrequency (py "🔵") (py "multiweekly") 2.
Definition WEEKLY := mkFrequency (py "🟡") (py "weekly") 3.
Definition MULTIMONTHLY := mkFrequency (py "🟠") (py "multimonthly") 4.
Definition MONTHLY := mkFrequency (py "🔴") (py "monthly") 5.

Definition _LABEL_MAP : gmap str Frequency :=
  list_to_map
    [ (label DAILY, DAILY); (label MULTIWEEKLY, MULTIWEEKLY);
      (label WEEKLY, WEEKLY); (label MONTHLY, MONTHLY);
      (label MULTIMONTHLY, MULTIMONTHLY) ].

(** [FrequencyLabels.from_label]: a subscript, so an unknown label raises
    [KeyError]. *)
Definition from_label (lab : str) : result Frequency :=
  match _LABEL_MAP !! lab with
  | Some f => Ok f
  | None => Raise KeyError
  end.

End FrequencyLabels.

Export FrequencyLabels.

(** ** Due dates: recurrence prediction and the overdue test
    (src/core/processing.py) *)

Module Processing.

(** The weekday table of [_infer_next_weekday_recurrence]: Spanish and
    English short forms to the weekday index (0 is Monday). *)
Definition weekday_table : list (str * Z) :=
  [ (py "lun", 0); (py "mar", 1); (py "mié", 2); (py "mie", 2);
    (py "jue", 3); (py "vie", 4); (py "sáb", 5); (py "sab", 5);
    (py "dom", 6);
    (py "mon", 0); (py "tue", 1); (py "wed", 2); (py "thu", 3);
    (py "fri", 4); (py "sat", 5); (py "sun", 6) ].

Definition weekday_map : gmap str Z := list_to_map weekday_table.

Definition _infer_next_weekday_recurrence (due_dt : datetime) (recur_str : str)
  : result value :=
  let parts := PyStr.split recur_str in
  if (2 <=? length parts)%nat then
    let wd := take 3 (nth 1 parts []) in
    match weekday_map !! wd with
    | Some wd_idx =>
      let days_ahead := (wd_idx - weekday (dt_date due_dt) + 7) mod 7 in
      let days_ahead := if days_ahead =? 0 then 7 else days_ahead in
      let* next_dt := add_relativedelta due_dt (rd_of_days days_ahead) in
      Ok (VStr (isoformat (dt_date next_dt)))
    | None => Ok VNone
    end
  else Ok VNone.

Section WithLibrary.

(** The two library functions the module relies on are parameters:
    [datetime.fromisoformat] on a string ([None] stands for its
    [ValueError]) and [str.lower]. *)
Variable fromisoformat : str -> option datetime.
Variable lower : str -> str.

(** [datetime.fromisoformat(v)] on an arbitrary value. *)
Definition py_fromisoformat (v : value) : result datetime :=
  match v with
  | VStr s =>
    match fromisoformat s with
    | Some dt => Ok dt
    | None => Raise ValueError
    end
  | _ => Raise TypeError
  end.

(** [v.lower()]: only strings have the method. *)
Definition py_lower (v : value) : result str :=
  match v with
  | VStr s => Ok (lower s)
  | _ => Raise AttributeError
  end.

(** [except (ValueError, TypeError)]: the handler's value replaces the
    two exceptions, any other one propagates. *)
Definition except_value_type {A} (r : result A) (handler : result A)
  : result A :=
  match r with
  | Raise ValueError | Raise TypeError => handler
  | _ => r
  end.

Definition infer_next_recurrence (due_dict : dict) : result value :=
  let next_recurrence_date := dict_get due_dict "next_recurring_date" in
  if truthy next_recurrence_date then Ok next_recurrence_date
  else
    let due_date_str := dict_get due_dict "date" in
    let* recur_str := py_lower (dict_get_default due_dict "string" (VStr [])) in
    if negb (truthy due_date_str) then Ok VNone
    else
      let* due_dt :=
        except_value_type
          (let* dt := py_fromisoformat due_date_str in Ok (Some dt))
          (Ok None) in
      match due_dt with
      | None => Ok VNone
      | Some due_dt =>
        if contains recur_str (py "cada mes")
           || contains recur_str (py "every month") then
          let* r := add_relativedelta due_dt (rd_of_months 1) in
          Ok (VStr (isoformat (dt_date r)))
        else if contains recur_str (py "cada día")
                || contains recur_str (py "every day") then
          let* r := add_relativedelta due_dt (rd_of_days 1) in
          Ok (VStr (isoformat (dt_date r)))
        else if contains recur_str (py "cada semana")
                || contains recur_str (py "every week") then
          let* r := add_relativedelta due_dt (rd_of_weeks 1) in
          Ok (VStr (isoformat (dt_date r)))
        else if startswith recur_str (py "cada ")
                || startswith recur_str (py "every ") then
          _infer_next_weekday_recurrence due_dt recur_str
        else Ok VNone
      end.

(** ["T" in v]: membership needs an iterable. *)
Definition py_contains_T (v : value) : result bool :=
  match v with
  | VStr s => Ok (contains s (py "T"))
  | _ => Raise TypeError
  end.

Definition is_task_overdue (due_dict : option dict) (now : datetime)
  (tz : tzinfo) : result value :=
  match due_dict with
  | None => Ok (VBool false)
  | Some d =>
    if bool_decide (d = ∅) || negb (truthy (dict_get d "date"))
    then Ok (VBool false)
    else
      let due_date := dict_get d "date" in
      let today := dt_date now in
      except_value_type
        (let* has_time := py_contains_T due_date in
         if has_time then
           let* due_dt := py_fromisoformat due_date in
           let due_dt :=
             match dt_tzinfo due_dt with
             | None => replace_tzinfo due_dt tz
             | Some _ => due_dt
             end in
           let* b := dt_lt due_dt now in
           Ok (VBool b)
         else
           let* due_dt := py_fromisoformat due_date in
           let due_dt := replace_tzinfo due_dt tz in
           Ok (VBool (dt_date due_dt <? today)))
        (Ok VNone)
  end.

End WithLibrary.

End Processing.

Export Processing.

(** ** Task records and their assembly (src/core/processing.py) *)

Module Records.

(** The [title] object of a task record.  A field is [None] when the key
    is missing from the dictionary ([parts] also when it holds [None]). *)
Record title_obj := mkTitle {
  is_complete : option bool;
  combined : option str;
  to_replace : option bool;
  parts : option sdict;
  duplicated_id : option bool;
  sequential_id : option bool
}.

Definition empty_title : title_obj := mkTitle None None None None None None.

(** The [frequency_labels] object. *)
Record freq_info := mkFreqInfo {
  fl_list : list Frequency;
  fl_count : nat;
  frequency_matches_label : option bool;
  has_non_frequency : option bool
}.

(** An assembled task record; [t_title] and [t_frequency_labels] are
    [None] when the key is missing. *)
Record task := mkTask {
  t_id : value;
  t_content : value;
  t_due : option dict;
  t_labels : list str;
  t_title : option title_obj;
  t_frequency_labels : option freq_info
}.

(** A task as fetched: [raw_due] is the [to_dict()] view of its due
    object, when it has one. *)
Record raw_task := mkRaw {
  raw_id : value;
  raw_content : value;
  raw_due : option dict;
  raw_labels : list str
}.

End Records.

Export Records.

Module Assembly.

Definition _detect_frequencies (labels : list str) : list Frequency :=
  fold_right
    (fun lab result =>
       match from_label lab with
       | Ok freq_obj => freq_obj :: result
       | Raise _ => result
       end) [] labels.

Fixpoint _has_non_frequency_label (labels : list str) : bool :=
  match labels with
  | [] => false
  | lab :: rest =>
    match from_label lab with
    | Ok _ => _has_non_frequency_label rest
    | Raise _ => true
    end
  end.

Definition build_title_object (parts_of_the_title : option sdict)
  (title_is_valid : bool) (content : value) : title_obj :=
  let combined :=
    match parts_of_the_title with
    | Some p =>
      let ticket_id := sdict_get p "id" in
      let ticket_id :=
        if nonempty ticket_id then py "(" ++ ticket_id ++ py ")"
        else ticket_id in
      Some (sdict_get p "freq" ++ ticket_id ++ sdict_get p "ticket_emoji"
            ++ sdict_get p "text")
    | None => None
    end in
  let to_replace :=
    match combined, content with
    | Some c, VStr s => title_is_valid && negb (bool_decide (s = c))
    | _, _ => false
    end in
  mkTitle (Some title_is_valid) combined (Some to_replace)
          parts_of_the_title None None.

(** [a or b] *)
Definition py_or (a b : value) : value := if truthy a then a else b.

Section WithLibrary.

Variable fromisoformat : str -> option datetime.
Variable lower : str -> str.
Variable uni_alnum : cp -> bool.
Variable uni_decimal : cp -> bool.

Definition _process_due_obj (due_obj : option dict) : result (option dict) :=
  match due_obj with
  | None => Ok None
  | Some due_dict =>
    if bool_decide (due_dict = ∅) then Ok None
    else
      let is_recurring :=
        py_or (py_or (dict_get due_dict "recurring")
                     (dict_get due_dict "is_recurring")) (VBool false) in
      if truthy is_recurring then
        let* nrd := infer_next_recurrence fromisoformat lower due_dict in
        let due_dict := <["next_recurrence_date" := nrd]> due_dict in
        let due_dict :=
          match due_dict !! "string", due_dict !! "frequency" with
          | Some s, None => <["frequency" := s]> due_dict
          | _, _ => due_dict
          end in
        Ok (Some (delete "string" due_dict))
      else Ok (Some due_dict)
  end.

(** The body of the loop of [categorize_tasks]: the record of one task
    and whether it goes to the overdue list. *)
Definition categorize_task (t : raw_task) (now : datetime) (tz : tzinfo)
  : result (task * bool) :=
  let labels := raw_labels t in
  let* due_dict := _process_due_obj (raw_due t) in
  let freq_list := _detect_frequencies labels in
  let freq_count := length freq_list in
  let '(title_is_valid, parts_of_the_title) :=
    validate_ticket_name uni_alnum uni_decimal (raw_content t) 3 in
  let title :=
    build_title_object parts_of_the_title title_is_valid (raw_content t) in
  let is_valid :=
    match parts_of_the_title, freq_list with
    | Some p, [f] =>
      match p !! "freq" with
      | Some fr => bool_decide (emoji f = fr)
      | None => false
      end
    | _, _ => false
    end in
  let task_data :=
    mkTask (raw_id t) (raw_content t) due_dict labels (Some title)
      (Some (mkFreqInfo freq_list freq_count (Some is_valid)
               (Some (_has_non_frequency_label labels)))) in
  match due_dict with
  | Some d =>
    if negb (bool_decide (d = ∅)) && truthy (dict_get d "date") then
      let* overdue := is_task_overdue fromisoformat due_dict now tz in
      match overdue with
      | VNone => Ok (task_data, false)
      | _ => Ok (task_data, truthy overdue)
      end
    else Ok (task_data, false)
  | None => Ok (task_data, false)
  end.

(** [categorize_tasks]: the overdue and the not-overdue records, each in
    the order of the input. *)
Fixpoint categorize_tasks (tasks : list raw_task) (now : datetime)
  (tz : tzinfo) : result (list task * list task) :=
  match tasks with
  | [] => Ok ([], [])
  | t :: rest =>
    let* r := categorize_task t now tz in
    let* rs := categorize_tasks rest now tz in
    Ok (if r.2 then (r.1 :: rs.1, rs.2) else (rs.1, r.1 :: rs.2))
  end.

End WithLibrary.

End Assembly.

Export Assembly.

(** ** Batch-wide checks (src/main.py) *)

Module Main.

(** One entry of the issue report. *)
Record issue_entry := mkIssue {
  ie_task_id : value;
  ie_issues : list str
}.

Definition title_of (t : task) : title_obj := default empty_title (t_title t).

(** The issues of one task, in the order of the checks. *)
Definition task_issues (t : task) : list str :=
  let title := title_of t in
  let fl := t_frequency_labels t in
  (if negb (default true (is_complete title))
   then [py "title is incomplete"] else [])
  ++ (if default false (duplicated_id title)
      then [py "duplicated ticket id"] else [])
  ++ (if bool_decide (sequential_id title = Some false)
      then [py "non-sequential ticket id"] else [])
  ++ (if negb (default true (fl ≫= frequency_matches_label))
      then [py "frequency emoji does not match label"] else [])
  ++ (if negb (default true (fl ≫= has_non_frequency))
      then [py "missing non-frequency label"] else []).

Definition _collect_issue_tasks (all_groups : list (list task))
  : list issue_entry :=
  flat_map
    (fun grp =>
       flat_map
         (fun t =>
            let issues := task_issues t in
            match issues with
            | [] => []
            | _ => [mkIssue (t_id t) issues]
            end) grp)
    all_groups.

(** [s.split(sep)] for a one-character separator: empty pieces are kept. *)
Fixpoint split_on (sep : cp) (cur : str) (s : str) : list str :=
  match s with
  | [] => [rev cur]
  | c :: r =>
    if (c =? sep)%N then rev cur :: split_on sep [] r
    else split_on sep (c :: cur) r
  end.

Section Unicode.

(** [str.isalpha] and the value of a decimal digit, for the code points
    above ASCII. *)
Variable uni_alpha : cp -> bool.
Variable uni_digit_value : cp -> option Z.

Definition isalpha (c : cp) : bool :=
  if (c <? 128)%N then is_ascii_upper c || is_ascii_lower c else uni_alpha c.

Definition digit_value (c : cp) : option Z :=
  if (c <? 128)%N
  then (if is_ascii_digit c then Some (Z.of_N c - 48) else None)
  else uni_digit_value c.

(** The digits of an [int] literal: decimal digits, with single
    underscores allowed between them. *)
Fixpoint int_digits (acc : Z) (after_digit : bool) (s : str) : option Z :=
  match s with
  | [] => if after_digit then Some acc else None
  | c :: r =>
    if (c =? 95)%N then
      (if after_digit then int_digits acc false r else None)
    else
      match digit_value c with
      | Some d => int_digits (10 * acc + d) true r
      | None => None
      end
  end.

(** [int(s)]; [None] stands for its [ValueError]. *)
Definition py_int (s : str) : option Z :=
  match strip s with
  | 43%N :: r => int_digits 0 false r
  | 45%N :: r => Z.opp <$> int_digits 0 false r
  | r => int_digits 0 false r
  end.

(** [any(id_str.startswith(p) for id_str in all_ids)] *)
Definition any_startswith (all_ids : gset str) (p : str) : bool :=
  existsb (fun id_str => startswith id_str p) (elements all_ids).

(** [range(1, n)] *)
Definition range1 (n : Z) : list Z := seqZ 1 (n - 1).

Definition _validate_sequential_id (ticket_id : value) (all_ids : gset str)
  : bool :=
  match ticket_id with
  | VStr ((_ :: _) as ticket_id) =>
    match split_on 45 [] ticket_id with
    | [first_part; second_part; _] =>
      match first_part with
      | [] => false
      | prefix :: first_digits =>
        if negb (isalpha prefix) then false
        else
          match py_int first_digits, py_int second_part with
          | Some first_num, Some second_num =>
            forallb
              (fun i =>
                 any_startswith all_ids
                   ([prefix] ++ format_02d i ++ py "-"))
              (range1 first_num)
            && ((second_num <=? 1)
                || forallb
                     (fun j =>
                        any_startswith all_ids
                          ([prefix] ++ format_02d first_num ++ py "-"
                           ++ format_02d j ++ py "-"))
                     (range1 second_num))
          | _, _ => false
          end
      end
    | _ => false
    end
  | _ => false
  end.

(** [(t.get("title", {}).get("parts") or {}).get("id")] *)
Definition task_pid (t : task) : option str :=
  parts (title_of t) ≫= (.!! "id").

(** [if pid:] *)
Definition pid_truthy (pid : option str) : bool :=
  match pid with
  | Some (_ :: _) => true
  | _ => false
  end.

(** The first pass of [_mark_duplicated_ids]: the occurrences of each
    id. *)
Definition count_ids (all_groups : list (list task)) : gmap str nat :=
  fold_left
    (fun counts grp =>
       fold_left
         (fun counts t =>
            match task_pid t with
            | Some ((_ :: _) as pid) =>
              <[pid := (default 0 (counts !! pid) + 1)%nat]> counts
            | _ => counts
            end) grp counts)
    all_groups ∅.

Definition set_duplicated_id (b : bool) (t : task) : task :=
  let ti := title_of t in
  mkTask (t_id t) (t_content t) (t_due t) (t_labels t)
    (Some (mkTitle (is_complete ti) (combined ti) (to_replace ti) (parts ti)
             (Some b) (sequential_id ti)))
    (t_frequency_labels t).

Definition set_sequential_id (b : bool) (t : task) : task :=
  let ti := title_of t in
  mkTask (t_id t) (t_content t) (t_due t) (t_labels t)
    (Some (mkTitle (is_complete ti) (combined ti) (to_replace ti) (parts ti)
             (duplicated_id ti) (Some b)))
    (t_frequency_labels t).

(** [_mark_duplicated_ids]: the groups with the flag written on every
    task. *)
Definition _mark_duplicated_ids (all_groups : list (list task))
  : list (list task) :=
  let _id_counts := count_ids all_groups in
  map (map (fun t =>
         let pid := task_pid t in
         set_duplicated_id
           (pid_truthy pid
            && bool_decide (1 < default 0 (_id_counts !! default [] pid))%nat)
           t))
      all_groups.

(** The first pass of [_mark_sequential_ids]: the set of the ids. *)
Definition collect_ids (all_groups : list (list task)) : gset str :=
  fold_left
    (fun ids grp =>
       fold_left
         (fun ids t =>
            match task_pid t with
            | Some ((_ :: _) as pid) => {[ pid ]} ∪ ids
            | _ => ids
            end) grp ids)
    all_groups ∅.

Definition pid_value (pid : option str) : value :=
  match pid with
  | Some s => VStr s
  | None => VNone
  end.

Definition _mark_sequential_ids (all_groups : list (list task))
  : list (list task) :=
  let _all_ids := collect_ids all_groups in
  map (map (fun t =>
         set_sequential_id
           (_validate_sequential_id (pid_value (task_pid t)) _all_ids) t))
      all_groups.

End Unicode.

End Main.

Export Main.

(** ** An executable instance of the library parameters

    [fromisoformat_basic] accepts the forms [datetime.isoformat] emits
    for whole seconds (YYYY-MM-DD, optionally followed by a separator,
    HH:MM:SS and a +HH:MM or -HH:MM offset) and rejects everything else;
    [lower_ascii] lowercases the ASCII letters.  They agree with Python on
    the inputs used in the examples below. *)

Module SampleLibrary.

Definition digit (c : cp) : option Z :=
  if (48 <=? c)%N && (c <=? 57)%N then Some (Z.of_N c - 48) else None.

Definition num2 (a b : cp) : option Z :=
  x ← digit a; y ← digit b; Some (10 * x + y).

Definition num4 (a b c d : cp) : option Z :=
  x ← num2 a b; y ← num2 c d; Some (100 * x + y).

Definition parse_date (s : str) : option (date * str) :=
  match s with
  | y1 :: y2 :: y3 :: y4 :: 45%N :: m1 :: m2 :: 45%N :: d1 :: d2 :: rest =>
    y ← num4 y1 y2 y3 y4; m ← num2 m1 m2; d ← num2 d1 d2;
    if (1 <=? y) && (1 <=? m) && (m <=? 12) && (1 <=? d)
       && (d <=? days_in_month y m)
    then Some (ymd2ord y m d, rest) else None
  | _ => None
  end.

Definition parse_hms (s : str) : option (Z * str) :=
  match s with
  | h1 :: h2 :: 58%N :: m1 :: m2 :: 58%N :: s1 :: s2 :: rest =>
    h ← num2 h1 h2; m ← num2 m1 m2; sec ← num2 s1 s2;
    if (h <? 24) && (m <? 60) && (sec <? 60)
    then Some (((h * 60 + m) * 60 + sec) * 1000000, rest) else None
  | _ => None
  end.

Definition parse_offset (s : str) : option (option tzinfo) :=
  match s with
  | [] => Some None
  | [sg; h1; h2; 58%N; m1; m2] =>
    h ← num2 h1 h2; m ← num2 m1 m2;
    if (h <? 24) && (m <? 60) then
      let off := (h * 60 + m) * 60000000 in
      if (sg =? 43)%N then Some (Some off)
      else if (sg =? 45)%N then Some (Some (- off))
      else None
    else None
  | _ => None
  end.

Definition fromisoformat_basic (s : str) : option datetime :=
  '(d, rest) ← parse_date s;
  match rest with
  | [] => Some (mkdt d 0 None)
  | _ :: rest =>
    '(t, rest) ← parse_hms rest;
    tz ← parse_offset rest;
    Some (mkdt d t tz)
  end.

Definition lower_ascii (s : str) : str :=
  map (fun c => if (65 <=? c)%N && (c <=? 90)%N then (c + 32)%N else c) s.

End SampleLibrary.

Export SampleLibrary.

(** ** Notions used to state the properties *)

Module Notions.

(** The task at a position of the batch: group [g], index [i]. *)
Definition task_at (groups : list (list task)) (g i : nat) : option task :=
  groups !! g ≫= (.!! i).

(** The tasks of a group that carry the id [pid], and their number in the
    whole batch. *)
Definition has_pid (pid : str) (t : task) : bool :=
  bool_decide (task_pid t = Some pid).

Definition group_count (pid : str) (grp : list task) : nat :=
  length (List.filter (has_pid pid) grp).

Definition batch_count (pid : str) (groups : list (list task)) : nat :=
  sum_list (map (group_count pid) groups).

(** One step of the counting pass of [_mark_duplicated_ids]. *)
Definition count_step (counts : gmap str nat) (t : task) : gmap str nat :=
  match task_pid t with
  | Some ((_ :: _) as pid) =>
    <[pid := (default 0 (counts !! pid) + 1)%nat]> counts
  | _ => counts
  end.

(** The Unicode parameters restricted to ASCII: no letter, digit or
    alphanumeric character beyond it. *)
Definition no_class (c : cp) : bool := false.
Definition no_digit_value (c : cp) : option Z := None.

(** A small batch and a fetched task, to run the model on. *)
Definition sample_task (i : string) (pid : option string) : task :=
  mkTask (VStr (py i)) VNone None []
    (Some (mkTitle (Some true) None None
             (match pid with
              | Some p => Some {[ "id" := py p ]}
              | None => None
              end) None None)) None.

Definition sample_batch : list (list task) :=
  [ [ sample_task "1" (Some "A01-01-00"); sample_task "2" None ];
    [ sample_task "3" (Some "A01-01-00"); sample_task "4" (Some "") ] ].

Definition sample_raw : raw_task :=
  mkRaw (VStr (py "42")) (VStr (py "🟢(B01-16-00)📴Stop all phone apps"))
    None [].

Definition sample_now : datetime := mkdt (ymd2ord 2025 11 21) 0 None.

Definition sample_record : task :=
  match categorize_task fromisoformat_basic lower_ascii no_class no_class
          sample_raw sample_now 0 with
  | Ok (t, _) => t
  | Raise _ => mkTask VNone VNone None [] None None
  end.

End Notions.

Export Notions.

(** * Properties *)

(** ** The overdue test *)

Module OverdueFacts.

Section WithLibrary.

Variable fromisoformat : str -> option datetime.

(** is_task_overdue always returns, with a boolean or [None]. *)
Lemma is_task_overdue_returns due_dict now tz :
  exists v, is_task_overdue fromisoformat due_dict now tz = Ok v
            /\ (v = VNone \/ exists b, v = VBool b).
Proof.
  assert (Hb : forall b : bool, exists v, Ok (VBool b) = Ok v
                 /\ (v = VNone \/ exists b', v = VBool b'))
    by (intros b; exists (VBool b); eauto).
  assert (Hn : exists v, Ok VNone = Ok v
                 /\ (v = VNone \/ exists b', v = VBool b'))
    by (exists VNone; eauto).
  unfold is_task_overdue.
  destruct due_dict as [d|]; [|apply Hb].
  destruct (bool_decide (d = ∅) || negb (truthy (dict_get d "date")));
    [apply Hb|].
  destruct (dict_get d "date") as [| b | z | s]; simpl; try apply Hn.
  destruct (contains s (py "T")); simpl;
    destruct (fromisoformat s) as [dt|]; simpl; try apply Hn; try apply Hb.
  destruct dt as [dd tt [z|]], now as [nd nt [z'|]]; unfold dt_lt; simpl;
    try apply Hn; apply Hb.
Qed.

End WithLibrary.

(** C1, as stated, at a concrete input: a reference instant of
    2025-01-01 23:30 UTC, the zone UTC+2 and a task due on 2025-01-01.
    In the zone the instant falls on 2025-01-02, so the due date is
    strictly earlier than the date computed in the zone, yet the task is
    not reported overdue. *)
Lemma is_task_overdue_zone_counterexample :
  let due := {[ "date" := VStr (py "2025-01-01") ]} : dict in
  let now := mkdt (ymd2ord 2025 1 1) (84600 * 1000000) (Some 0) in
  let tz := 7200 * 1000000 in
  ~ (is_task_overdue fromisoformat_basic (Some due) now tz = Ok (VBool true)
     <-> ymd2ord 2025 1 1 < dt_date (astimezone now tz)).
Proof.
  intros due now tz [_ H].
  assert (Hlt : ymd2ord 2025 1 1 < dt_date (astimezone now tz))
    by (vm_compute; reflexivity).
  specialize (H Hlt). vm_compute in H. discriminate H.
Qed.

(** C1, amended: for a non-empty date string without 'T' that parses, the
    task is overdue exactly when the parsed date is strictly earlier than
    the date component of the reference instant as it was passed in; the
    zone is not consulted, and a task due on that day is not overdue. *)
Theorem is_task_overdue_date_only fromisoformat d s dt now tz :
  d !! "date" = Some (VStr s) ->
  s <> [] ->
  contains s (py "T") = false ->
  fromisoformat s = Some dt ->
  is_task_overdue fromisoformat (Some d) now tz
  = Ok (VBool (bool_decide (dt_date dt < dt_date now)))
  /\ (dt_date dt = dt_date now ->
      is_task_overdue fromisoformat (Some d) now tz = Ok (VBool false)).
Proof.
  intros Hd Hs HT Hp.
  assert (E : is_task_overdue fromisoformat (Some d) now tz
              = Ok (VBool (bool_decide (dt_date dt < dt_date now)))).
  { unfold is_task_overdue, dict_get. rewrite Hd. simpl.
    assert (Hne : bool_decide (d = ∅) = false).
    { apply bool_decide_eq_false. intros ->. rewrite lookup_empty in Hd.
      discriminate. }
    rewrite Hne. destruct s as [|c s']; [congruence|]. simpl negb. simpl orb.
    cbv iota. unfold py_contains_T, bind. rewrite HT.
    unfold py_fromisoformat. rewrite Hp. simpl.
    do 2 f_equal. destruct (Z.ltb_spec (dt_date dt) (dt_date now)).
    - symmetry. now apply bool_decide_eq_true.
    - symmetry. apply bool_decide_eq_false. lia. }
  split; [exact E|].
  intros Heq. rewrite E. do 2 f_equal. apply bool_decide_eq_false. lia.
Qed.

Lemma is_task_overdue_date_only_witness :
  is_task_overdue fromisoformat_basic
    (Some ({[ "date" := VStr (py "2025-11-20") ]} : dict))
    (mkdt (ymd2ord 2025 11 21) 0 None) 0
  = Ok (VBool true).
Proof.
  refine (proj1 (is_task_overdue_date_only fromisoformat_basic
           {[ "date" := VStr (py "2025-11-20") ]} (py "2025-11-20")
           (mkdt (ymd2ord 2025 11 20) 0 None)
           (mkdt (ymd2ord 2025 11 21) 0 None) 0 _ _ _ _)).
  - reflexivity.
  - discriminate.
  - reflexivity.
  - reflexivity.
Defined.

(** C3: without a date the answer is exactly [False]; with a date string
    that does not parse it is [None], a different value. *)
Theorem is_task_overdue_absent_or_unparseable fromisoformat now tz :
  (forall due,
     (due = None \/ exists d, due = Some d /\ truthy (dict_get d "date") = false) ->
     is_task_overdue fromisoformat due now tz = Ok (VBool false))
  /\ (forall d s,
        d !! "date" = Some (VStr s) -> s <> [] -> fromisoformat s = None ->
        is_task_overdue fromisoformat (Some d) now tz = Ok VNone)
  /\ VNone <> VBool false.
Proof.
  split; [|split; [|discriminate]].
  - intros due [->|(d & -> & Hd)]; [reflexivity|].
    unfold is_task_overdue. rewrite Hd. simpl.
    now rewrite orb_true_r.
  - intros d s Hd Hs Hp.
    unfold is_task_overdue, dict_get. rewrite Hd. simpl.
    assert (Hne : bool_decide (d = ∅) = false).
    { apply bool_decide_eq_false. intros ->. rewrite lookup_empty in Hd.
      discriminate. }
    rewrite Hne. destruct s as [|c s']; [congruence|]. simpl negb. simpl orb.
    cbv iota. unfold py_contains_T, bind.
    destruct (contains (c :: s') (py "T"));
      unfold py_fromisoformat; rewrite Hp; reflexivity.
Qed.

Lemma is_task_overdue_absent_or_unparseable_witness :
  is_task_overdue fromisoformat_basic
    (Some ({[ "string" := VStr (py "cada sáb") ]} : dict))
    (mkdt (ymd2ord 2025 11 21) 43200000000 (Some 0)) 0 = Ok (VBool false)
  /\ is_task_overdue fromisoformat_basic
       (Some ({[ "date" := VStr (py "tomorrow") ]} : dict))
       (mkdt (ymd2ord 2025 11 21) 43200000000 (Some 0)) 0 = Ok VNone.
Proof.
  pose proof (is_task_overdue_absent_or_unparseable fromisoformat_basic
    (mkdt (ymd2ord 2025 11 21) 43200000000 (Some 0)) 0) as (H1 & H2 & _).
  split.
  - apply H1. right. eexists. split; [reflexivity|]. reflexivity.
  - apply (H2 _ (py "tomorrow")).
    + reflexivity.
    + discriminate.
    + reflexivity.
Defined.

End OverdueFacts.

(** ** The recurrence predictor *)

Module RecurrenceFacts.

(** C2: a due dictionary whose phrase is present with the value [None]
    makes infer_next_recurrence raise, whatever the library does: the
    phrase is lowercased before anything is parsed. *)
Theorem infer_next_recurrence_none_phrase_raises
  (fromisoformat : str -> option datetime) (lower : str -> str) :
  infer_next_recurrence fromisoformat lower
    (<[ "date" := VStr (py "2025-11-21") ]> {[ "string" := VNone ]})
  = Raise AttributeError.
Proof. reflexivity. Qed.

(** The same defect without a date: nothing could be inferred, and the
    call still raises instead of returning [None]. *)
Lemma infer_next_recurrence_none_phrase_no_date
  (fromisoformat : str -> option datetime) (lower : str -> str) :
  infer_next_recurrence fromisoformat lower {[ "string" := VNone ]}
  = Raise AttributeError.
Proof. reflexivity. Qed.

(** At the end of the calendar the addition itself overflows. *)
Lemma infer_next_recurrence_overflow :
  infer_next_recurrence fromisoformat_basic lower_ascii
    (<[ "date" := VStr (py "9999-12-31") ]>
       {[ "string" := VStr (py "every day") ]})
  = Raise OverflowError
  /\ infer_next_recurrence fromisoformat_basic lower_ascii
       (<[ "date" := VStr (py "9999-12-31") ]>
          {[ "string" := VStr (py "every month") ]})
     = Raise ValueError.
Proof. split; vm_compute; reflexivity. Qed.

End RecurrenceFacts.

(** ** Sequential identifiers *)

Module SequentialFacts.

Section Unicode.

Variable uni_alpha : cp -> bool.
Variable uni_digit_value : cp -> option Z.

Lemma any_startswith_mono (S T : gset str) (p : str) :
  S ⊆ T -> any_startswith S p = true -> any_startswith T p = true.
Proof.
  unfold any_startswith. intros Hsub H.
  apply existsb_exists in H as (x & Hx & Hp).
  apply existsb_exists. exists x. split; [|exact Hp].
  apply list_elem_of_In, elem_of_elements, Hsub, elem_of_elements,
    list_elem_of_In, Hx.
Qed.

Lemma forallb_any_startswith_mono (S T : gset str) (f : Z -> str) (l : list Z) :
  S ⊆ T ->
  forallb (fun i => any_startswith S (f i)) l = true ->
  forallb (fun i => any_startswith T (f i)) l = true.
Proof.
  intros Hsub H. rewrite forallb_forall in *.
  intros x Hx. eapply any_startswith_mono; eauto.
Qed.

(** C6: enlarging the set of identifiers of the batch never invalidates
    an identifier. *)
Theorem validate_sequential_id_monotone (ticket_id : value) (S T : gset str) :
  S ⊆ T ->
  _validate_sequential_id uni_alpha uni_digit_value ticket_id S = true ->
  _validate_sequential_id uni_alpha uni_digit_value ticket_id T = true.
Proof.
  intros Hsub. unfold _validate_sequential_id.
  destruct ticket_id as [| | |[|c s]]; try discriminate.
  destruct (split_on 45 [] (c :: s)) as [|p1 [|p2 [|p3 [|]]]];
    try discriminate.
  destruct p1 as [|prefix first_digits]; try discriminate.
  destruct (negb (isalpha uni_alpha prefix)); try discriminate.
  destruct (py_int uni_digit_value first_digits) as [first_num|];
    try discriminate.
  destruct (py_int uni_digit_value p2) as [second_num|]; try discriminate.
  intros H. apply andb_prop in H as [H1 H2].
  apply andb_true_intro. split.
  - eapply forallb_any_startswith_mono; eauto.
  - apply orb_prop in H2 as [H2|H2]; [now rewrite H2|].
    apply orb_true_intro. right.
    eapply forallb_any_startswith_mono; eauto.
Qed.

End Unicode.

Lemma validate_sequential_id_monotone_witness :
  _validate_sequential_id no_class no_digit_value (VStr (py "C02-01-00"))
    ({[ py "C01-01-00"; py "C02-01-00"; py "C03-01-00" ]} : gset str) = true.
Proof.
  apply (validate_sequential_id_monotone no_class no_digit_value
           (VStr (py "C02-01-00"))
           ({[ py "C01-01-00"; py "C02-01-00" ]} : gset str)).
  - set_solver.
  - vm_compute. reflexivity.
Defined.

(** The example of the specification. *)
Lemma validate_sequential_id_gap :
  let ids : gset str := {[ py "C01-01-00"; py "C03-01-00" ]} in
  _validate_sequential_id no_class no_digit_value (VStr (py "C03-01-00")) ids
  = false
  /\ _validate_sequential_id no_class no_digit_value (VStr (py "C01-01-00")) ids
     = true.
Proof. split; vm_compute; reflexivity. Qed.

End SequentialFacts.

(** ** The batch-wide passes and the issue report *)

Module BatchFacts.

Lemma task_at_map (f : task -> task) groups g i :
  task_at (map (map f) groups) g i = f <$> task_at groups g i.
Proof.
  unfold task_at. rewrite list_lookup_fmap.
  destruct (groups !! g) as [grp|]; simpl; [|reflexivity].
  apply list_lookup_fmap.
Qed.

Lemma task_at_elem groups g i t :
  task_at groups g i = Some t -> exists grp, In grp groups /\ In t grp.
Proof.
  unfold task_at. destruct (groups !! g) as [grp|] eqn:Hg; simpl; [|easy].
  intros Hi. exists grp. split.
  - apply list_elem_of_In. eapply list_elem_of_lookup_2, Hg.
  - apply list_elem_of_In. eapply list_elem_of_lookup_2, Hi.
Qed.

(** A task with an issue is reported, under its own id and with all its
    issues. *)
Lemma collect_issue_tasks_reports groups grp t issue :
  In grp groups -> In t grp -> In issue (task_issues t) ->
  In (mkIssue (t_id t) (task_issues t)) (_collect_issue_tasks groups).
Proof.
  intros Hg Ht Hi. unfold _collect_issue_tasks.
  apply in_flat_map. exists grp. split; [exact Hg|].
  apply in_flat_map. exists t. split; [exact Ht|].
  destruct (task_issues t); [destruct Hi|]. now left.
Qed.

Lemma set_sequential_id_fields b t :
  t_id (set_sequential_id b t) = t_id t
  /\ sequential_id (title_of (set_sequential_id b t)) = Some b
  /\ t_frequency_labels (set_sequential_id b t) = t_frequency_labels t.
Proof. easy. Qed.

Lemma set_duplicated_id_fields b t :
  t_id (set_duplicated_id b t) = t_id t
  /\ duplicated_id (title_of (set_duplicated_id b t)) = Some b
  /\ parts (title_of (set_duplicated_id b t)) = parts (title_of t)
  /\ t_frequency_labels (set_duplicated_id b t) = t_frequency_labels t.
Proof. easy. Qed.

Lemma non_sequential_issue t :
  sequential_id (title_of t) = Some false ->
  In (py "non-sequential ticket id") (task_issues t).
Proof.
  intros H. unfold task_issues. rewrite H.
  rewrite bool_decide_eq_true_2 by reflexivity.
  apply in_or_app. right. apply in_or_app. right.
  apply in_or_app. left. now left.
Qed.

Lemma missing_label_issue t :
  t_frequency_labels t ≫= has_non_frequency = Some false ->
  In (py "missing non-frequency label") (task_issues t).
Proof.
  intros H. unfold task_issues. rewrite H. simpl.
  do 4 (apply in_or_app; right). now left.
Qed.

Section Unicode.

Variable uni_alpha : cp -> bool.
Variable uni_digit_value : cp -> option Z.

(** C9: a task without parsed parts, or whose parsed id is absent or
    empty, is marked not sequential and is reported for it. *)
Theorem missing_id_marked_and_reported groups g i t :
  task_at groups g i = Some t ->
  task_pid t = None \/ task_pid t = Some [] ->
  let marked := _mark_sequential_ids uni_alpha uni_digit_value groups in
  exists t',
    task_at marked g i = Some t'
    /\ t_id t' = t_id t
    /\ sequential_id (title_of t') = Some false
    /\ exists e, In e (_collect_issue_tasks marked)
         /\ ie_task_id e = t_id t
         /\ In (py "non-sequential ticket id") (ie_issues e).
Proof.
  intros Hat Hpid marked.
  set (f := fun t => set_sequential_id
          (_validate_sequential_id uni_alpha uni_digit_value
             (pid_value (task_pid t))
             (collect_ids groups)) t).
  assert (Hm : task_at marked g i = Some (f t)).
  { unfold marked, _mark_sequential_ids. fold f.
    rewrite task_at_map, Hat. reflexivity. }
  assert (Hv : _validate_sequential_id uni_alpha uni_digit_value
                 (pid_value (task_pid t)) (collect_ids groups) = false).
  { destruct Hpid as [-> | ->]; reflexivity. }
  exists (f t). split; [exact Hm|].
  assert (Hs : sequential_id (title_of (f t)) = Some false).
  { unfold f. rewrite Hv. reflexivity. }
  split; [reflexivity|]. split; [exact Hs|].
  destruct (task_at_elem _ _ _ _ Hm) as (grp & Hg & Ht).
  exists (mkIssue (t_id (f t)) (task_issues (f t))). split.
  - eapply collect_issue_tasks_reports; eauto using non_sequential_issue.
  - split; [reflexivity|]. simpl. now apply non_sequential_issue.
Qed.

End Unicode.

Lemma missing_id_marked_and_reported_witness :
  exists t',
    task_at (_mark_sequential_ids no_class no_digit_value
               sample_batch) 0 1 = Some t'
    /\ t_id t' = VStr (py "2")
    /\ sequential_id (title_of t') = Some false
    /\ exists e,
         In e (_collect_issue_tasks
                 (_mark_sequential_ids no_class no_digit_value
                    sample_batch))
         /\ ie_task_id e = VStr (py "2")
         /\ In (py "non-sequential ticket id") (ie_issues e).
Proof.
  apply (missing_id_marked_and_reported no_class no_digit_value
           sample_batch 0 1 (sample_task "2" None)).
  - reflexivity.
  - left. reflexivity.
Defined.

Section WithLibrary.

Variable fromisoformat : str -> option datetime.
Variable lower : str -> str.
Variable uni_alnum : cp -> bool.
Variable uni_decimal : cp -> bool.

Lemma categorize_task_frequency_labels raw now tz t ov :
  categorize_task fromisoformat lower uni_alnum uni_decimal raw now tz
  = Ok (t, ov) ->
  t_id t = raw_id raw
  /\ t_labels t = raw_labels raw
  /\ t_frequency_labels t ≫= has_non_frequency
     = Some (_has_non_frequency_label (raw_labels raw)).
Proof.
  unfold categorize_task.
  destruct (_process_due_obj fromisoformat lower (raw_due raw))
    as [due|e]; [|discriminate].
  unfold bind.
  destruct (validate_ticket_name uni_alnum uni_decimal (raw_content raw) 3)
    as [valid p].
  destruct due as [d|].
  - destruct (negb (bool_decide (d = ∅)) && truthy (dict_get d "date")).
    + destruct (is_task_overdue fromisoformat (Some d) now tz) as [v|];
        [|discriminate].
      destruct v; intros [= <- _]; easy.
    + intros [= <- _]; easy.
  - intros [= <- _]; easy.
Qed.

(** C10: a task without labels has no non-frequency label, its record
    says so, and wherever the record (or a copy that kept its frequency
    information, as the marking passes make) stands in a batch, the
    report lists the missing label. *)
Theorem empty_labels_reported raw now tz t ov :
  raw_labels raw = [] ->
  categorize_task fromisoformat lower uni_alnum uni_decimal raw now tz
  = Ok (t, ov) ->
  _has_non_frequency_label (raw_labels raw) = false
  /\ t_frequency_labels t ≫= has_non_frequency = Some false
  /\ forall groups grp t',
       In grp groups -> In t' grp ->
       t_frequency_labels t' = t_frequency_labels t ->
       exists e, In e (_collect_issue_tasks groups)
         /\ ie_task_id e = t_id t'
         /\ In (py "missing non-frequency label") (ie_issues e).
Proof.
  intros Hl Hc.
  destruct (categorize_task_frequency_labels _ _ _ _ _ Hc) as (_ & _ & Hf).
  rewrite Hl in *. simpl in Hf.
  split; [reflexivity|]. split; [exact Hf|].
  intros groups grp t' Hg Ht Heq.
  assert (Hi : In (py "missing non-frequency label") (task_issues t'))
    by (apply missing_label_issue; now rewrite Heq).
  exists (mkIssue (t_id t') (task_issues t')). split.
  - eapply collect_issue_tasks_reports; eauto.
  - split; [reflexivity|exact Hi].
Qed.

End WithLibrary.

Lemma empty_labels_reported_witness :
  t_frequency_labels sample_record ≫= has_non_frequency = Some false
  /\ exists e, In e (_collect_issue_tasks [[sample_record]])
       /\ ie_task_id e = VStr (py "42")
       /\ In (py "missing non-frequency label") (ie_issues e).
Proof.
  destruct (empty_labels_reported fromisoformat_basic lower_ascii
              no_class no_class sample_raw sample_now 0
              sample_record false eq_refl)
    as (_ & H2 & H3).
  - vm_compute. reflexivity.
  - split; [exact H2|].
    apply (H3 [[sample_record]] [sample_record] sample_record).
    + now left.
    + now left.
    + reflexivity.
Defined.

End BatchFacts.

(** ** Duplicate identifiers *)

Module DuplicateFacts.

Lemma count_step_lookup counts t pid :
  pid <> [] ->
  default 0%nat (count_step counts t !! pid)
  = (default 0 (counts !! pid) + (if has_pid pid t then 1 else 0))%nat.
Proof.
  intros Hne. unfold count_step, has_pid.
  destruct (task_pid t) as [[|c q]|] eqn:Hp.
  - rewrite bool_decide_eq_false_2 by congruence. lia.
  - destruct (decide (c :: q = pid)) as [<-|Hd].
    + rewrite lookup_insert_eq. rewrite bool_decide_eq_true_2 by reflexivity.
      reflexivity.
    + rewrite lookup_insert_ne by exact Hd.
      rewrite bool_decide_eq_false_2 by congruence. lia.
  - rewrite bool_decide_eq_false_2 by congruence. lia.
Qed.

Lemma count_group_lookup grp counts pid :
  pid <> [] ->
  default 0%nat (fold_left count_step grp counts !! pid)
  = (default 0 (counts !! pid) + group_count pid grp)%nat.
Proof.
  intros Hne. revert counts.
  induction grp as [|t grp IH]; intros counts; simpl.
  - unfold group_count. simpl. lia.
  - rewrite IH, count_step_lookup by exact Hne.
    unfold group_count. simpl. destruct (has_pid pid t); simpl; lia.
Qed.

Lemma count_groups_lookup groups counts pid :
  pid <> [] ->
  default 0%nat
    (fold_left (fun c grp => fold_left count_step grp c) groups counts !! pid)
  = (default 0 (counts !! pid) + batch_count pid groups)%nat.
Proof.
  intros Hne. revert counts.
  induction groups as [|grp groups IH]; intros counts; simpl.
  - unfold batch_count. simpl. lia.
  - rewrite IH, count_group_lookup by exact Hne.
    unfold batch_count. simpl. lia.
Qed.

(** The dictionary built by the first pass holds, for every non-empty id,
    the number of tasks of the batch that carry it. *)
Lemma count_ids_spec groups pid :
  pid <> [] ->
  default 0%nat (count_ids groups !! pid) = batch_count pid groups.
Proof.
  intros Hne. unfold count_ids.
  change (fun counts t => match task_pid t with
                          | Some ((_ :: _) as pid) =>
                            <[pid := (default 0 (counts !! pid) + 1)%nat]>
                              counts
                          | _ => counts
                          end) with count_step.
  rewrite count_groups_lookup by exact Hne.
  rewrite lookup_empty. reflexivity.
Qed.

Lemma group_count_pos pid grp i t :
  grp !! i = Some t -> task_pid t = Some pid ->
  (1 <= group_count pid grp)%nat.
Proof.
  intros Hi Hp. unfold group_count.
  assert (Hin : In t (List.filter (has_pid pid) grp)).
  { apply filter_In. split.
    - apply list_elem_of_In. eapply list_elem_of_lookup_2, Hi.
    - unfold has_pid. now apply bool_decide_eq_true_2. }
  destruct (List.filter (has_pid pid) grp); [destruct Hin|simpl; lia].
Qed.

Lemma group_count_two pid grp i j t u :
  i <> j -> grp !! i = Some t -> grp !! j = Some u ->
  task_pid t = Some pid -> task_pid u = Some pid ->
  (2 <= group_count pid grp)%nat.
Proof.
  revert i j t u.
  assert (Hlt : forall i j t u, (i < j)%nat ->
            grp !! i = Some t -> grp !! j = Some u ->
            task_pid t = Some pid -> task_pid u = Some pid ->
            (2 <= group_count pid grp)%nat).
  { intros i j t u Hij Hi Hj Ht Hu.
    rewrite <- (take_drop_middle grp i t Hi).
    unfold group_count. rewrite List.filter_app, length_app. simpl.
    unfold has_pid at 2. rewrite bool_decide_eq_true_2 by exact Ht. simpl.
    assert (Hd : drop (S i) grp !! (j - S i)%nat = Some u).
    { rewrite lookup_drop. replace (S i + (j - S i))%nat with j by lia.
      exact Hj. }
    pose proof (group_count_pos pid _ _ _ Hd Hu) as Hc.
    unfold group_count in Hc. lia. }
  intros i j t u Hij Hi Hj Ht Hu.
  destruct (Nat.lt_total i j) as [H|[H|H]]; [eauto|contradiction|eauto].
Qed.

Lemma sum_list_append (l k : list nat) :
  sum_list (l ++ k) = (sum_list l + sum_list k)%nat.
Proof. induction l as [|x l IH]; simpl; [reflexivity|]. rewrite IH. lia. Qed.

Lemma batch_count_group pid groups g grp :
  groups !! g = Some grp -> (group_count pid grp <= batch_count pid groups)%nat.
Proof.
  intros Hg. rewrite <- (take_drop_middle groups g grp Hg).
  unfold batch_count. rewrite map_app, sum_list_append. simpl. lia.
Qed.

Lemma batch_count_two_groups pid groups g h grp grp' :
  g <> h -> groups !! g = Some grp -> groups !! h = Some grp' ->
  (group_count pid grp + group_count pid grp' <= batch_count pid groups)%nat.
Proof.
  revert g h grp grp'.
  assert (Hlt : forall g h grp grp', (g < h)%nat ->
            groups !! g = Some grp -> groups !! h = Some grp' ->
            (group_count pid grp + group_count pid grp'
             <= batch_count pid groups)%nat).
  { intros g h grp grp' Hgh Hg Hh.
    rewrite <- (take_drop_middle groups g grp Hg).
    unfold batch_count. rewrite map_app, sum_list_append. simpl.
    assert (Hd : drop (S g) groups !! (h - S g)%nat = Some grp').
    { rewrite lookup_drop. replace (S g + (h - S g))%nat with h by lia.
      exact Hh. }
    pose proof (batch_count_group pid _ _ _ Hd) as Hc.
    unfold batch_count in Hc. lia. }
  intros g h grp grp' Hgh Hg Hh.
  destruct (Nat.lt_total g h) as [H|[H|H]]; [eauto|contradiction|].
  rewrite Nat.add_comm. eauto.
Qed.

(** Two tasks at different places of the batch with the same id make its
    count at least two. *)
Lemma batch_count_shared pid groups g i h j t u :
  (g, i) <> (h, j) ->
  task_at groups g i = Some t -> task_at groups h j = Some u ->
  task_pid t = Some pid -> task_pid u = Some pid ->
  (2 <= batch_count pid groups)%nat.
Proof.
  unfold task_at. intros Hne Ht Hu Hpt Hpu.
  destruct (groups !! g) as [grp|] eqn:Hg; [|discriminate].
  destruct (groups !! h) as [grp'|] eqn:Hh; [|discriminate].
  simpl in Ht, Hu.
  destruct (decide (g = h)) as [->|Hgh].
  - rewrite Hg in Hh. injection Hh as <-.
    assert (i <> j) by congruence.
    pose proof (group_count_two pid grp i j t u) as H2.
    pose proof (batch_count_group pid groups h grp Hg). 
    specialize (H2 ltac:(assumption) Ht Hu Hpt Hpu). lia.
  - pose proof (batch_count_two_groups pid groups g h grp grp' Hgh Hg Hh).
    pose proof (group_count_pos pid grp i t Ht Hpt).
    pose proof (group_count_pos pid grp' j u Hu Hpu). lia.
Qed.

(** C7: after the pass every task carries the flag; it is set exactly
    when the id of the task is non-empty and found on more than one task
    of the whole batch; so two tasks that share an id are both flagged. *)
Theorem duplicated_id_flag groups g i t :
  task_at groups g i = Some t ->
  exists t' b,
    task_at (_mark_duplicated_ids groups) g i = Some t'
    /\ t_id t' = t_id t
    /\ task_pid t' = task_pid t
    /\ duplicated_id (title_of t') = Some b
    /\ (b = true <->
        exists pid, task_pid t = Some pid /\ pid <> []
                    /\ (1 < batch_count pid groups)%nat)
    /\ (forall h j u pid,
          (g, i) <> (h, j) -> task_at groups h j = Some u ->
          task_pid t = Some pid -> task_pid u = Some pid -> pid <> [] ->
          b = true).
Proof.
  intros Hat.
  set (b := pid_truthy (task_pid t)
            && bool_decide (1 < default 0 (count_ids groups
                                             !! default [] (task_pid t)))%nat).
  assert (Hiff : b = true <->
            exists pid, task_pid t = Some pid /\ pid <> []
                        /\ (1 < batch_count pid groups)%nat).
  { unfold b. split.
    - intros H. apply andb_prop in H as [H1 H2].
      destruct (task_pid t) as [[|c q]|]; try discriminate.
      exists (c :: q). split; [reflexivity|]. split; [discriminate|].
      apply bool_decide_eq_true_1 in H2. simpl in H2.
      rewrite count_ids_spec in H2 by discriminate. exact H2.
    - intros (pid & -> & Hne & Hc).
      destruct pid as [|c q]; [congruence|]. simpl.
      apply bool_decide_eq_true_2.
      rewrite count_ids_spec by discriminate. exact Hc. }
  exists (set_duplicated_id b t), b.
  split.
  { unfold _mark_duplicated_ids, task_at in *.
    rewrite list_lookup_fmap.
    destruct (groups !! g) as [grp|]; [|discriminate]. simpl in *.
    rewrite list_lookup_fmap, Hat. reflexivity. }
  split; [reflexivity|]. split; [reflexivity|]. split; [reflexivity|].
  split; [exact Hiff|].
  intros h j u pid Hne Hu Hpt Hpu Hnil.
  apply Hiff. exists pid. split; [exact Hpt|]. split; [exact Hnil|].
  pose proof (batch_count_shared pid groups g i h j t u Hne Hat Hu Hpt Hpu).
  lia.
Qed.

Lemma duplicated_id_flag_witness :
  exists t' b,
    task_at (_mark_duplicated_ids sample_batch) 0 0 = Some t'
    /\ t_id t' = VStr (py "1")
    /\ task_pid t' = Some (py "A01-01-00")
    /\ duplicated_id (title_of t') = Some b
    /\ (b = true <->
        exists pid, Some (py "A01-01-00") = Some pid /\ pid <> []
                    /\ (1 < batch_count pid sample_batch)%nat)
    /\ (forall h j u pid,
          (0, 0)%nat <> (h, j) -> task_at sample_batch h j = Some u ->
          Some (py "A01-01-00") = Some pid -> task_pid u = Some pid ->
          pid <> [] -> b = true).
Proof.
  apply (duplicated_id_flag sample_batch 0 0
           (sample_task "1" (Some "A01-01-00"))).
  reflexivity.
Defined.

End DuplicateFacts.
